(** * ansible-lint rules: var-naming and command-instead-of-shell

    A shallow embedding of
      - src/ansiblelint/rules/VariableNamingRule.py
      - src/ansiblelint/rules/UseCommandInsteadOfShellRule.py
    and the properties of the two rules.

    Python values are embedded as the inductive type [Value]; a [dict] is an
    association list in insertion order (the order [dict.items()] iterates
    in), a [str] is its sequence of Unicode code points.  Code that can raise
    returns a [result]; a generator is the finite list of what it yields
    together with the way it ends. *)

From Stdlib Require Import List NArith ZArith Ascii String Bool Lia.
Import ListNotations.

Set Implicit Arguments.

(** ** Python strings *)

(** A Python [str] is a sequence of code points. *)
Definition pystr := list N.

(** The [str] denoted by an ASCII literal of the source. *)
Definition lit (s : string) : pystr := map N_of_ascii (list_ascii_of_string s).
Arguments lit : simpl never.

Definition pystr_eqb (a b : pystr) : bool :=
  if list_eq_dec N.eq_dec a b then true else false.

(** [s.startswith(p)] *)
Fixpoint startswith (p s : pystr) : bool :=
  match p, s with
  | [], _ => true
  | _ :: _, [] => false
  | a :: p', b :: s' => N.eqb a b && startswith p' s'
  end.

(** [s.endswith(p)] *)
Definition endswith (p s : pystr) : bool := startswith (rev p) (rev s).

(** [sep.join(parts)] *)
Fixpoint join (sep : pystr) (parts : list pystr) : pystr :=
  match parts with
  | [] => []
  | [x] => x
  | x :: rest => x ++ sep ++ join sep rest
  end.

(** ** Python values and exceptions *)

#[local] Unset Elimination Schemes.
Inductive Value : Type :=
| VNone
| VBool (b : bool)
| VInt (z : Z)
| VStr (s : pystr)
| VList (l : list Value)
| VDict (items : list (Value * Value)).
#[local] Set Elimination Schemes.

Inductive PyErr : Type :=
| AttributeError
| KeyError
| TypeError
| UnicodeEncodeError
| YAMLError.

Inductive result (A : Type) : Type :=
| Ok (a : A)
| Raise (e : PyErr).
Arguments Ok {A} a.
Arguments Raise {A} e.

Definition bind {A B} (m : result A) (f : A -> result B) : result B :=
  match m with
  | Ok a => f a
  | Raise e => Raise e
  end.

Declare Scope py_scope.
Delimit Scope py_scope with py.
Notation "x <- m ;; k" := (bind m (fun x => k))
  (at level 61, m at next level, right associativity) : py_scope.
Notation "' pat <- m ;; k" := (bind m (fun x => match x with pat => k end))
  (at level 61, pat pattern, m at next level, right associativity) : py_scope.
Local Open Scope py_scope.

(** Truth value of an object, as [if x] and [x and y] test it. *)
Definition truthy (v : Value) : bool :=
  match v with
  | VNone => false
  | VBool b => b
  | VInt z => negb (Z.eqb z 0)
  | VStr s => match s with [] => false | _ => true end
  | VList l => match l with [] => false | _ => true end
  | VDict d => match d with [] => false | _ => true end
  end.

(** [v == 'literal'] : only a [str] with the same code points is equal. *)
Definition eq_str (v : Value) (s : pystr) : bool :=
  match v with
  | VStr t => pystr_eqb t s
  | _ => false
  end.

(** The entry of a dict stored under the [str] key [k]. *)
Fixpoint lookup (k : pystr) (items : list (Value * Value)) : option Value :=
  match items with
  | [] => None
  | (key, value) :: rest => if eq_str key k then Some value else lookup k rest
  end.

(** [d.get(k, default)]; only a dict has the method. *)
Definition py_get (d : Value) (k : pystr) (default : Value) : result Value :=
  match d with
  | VDict items =>
      match lookup k items with
      | Some v => Ok v
      | None => Ok default
      end
  | _ => Raise AttributeError
  end.

(** [d[k]] for a [str] subscript [k]: [KeyError] on a dict without the key,
    [TypeError] on every other value. *)
Definition py_getitem (d : Value) (k : pystr) : result Value :=
  match d with
  | VDict items =>
      match lookup k items with
      | Some v => Ok v
      | None => Raise KeyError
      end
  | _ => Raise TypeError
  end.

(** ['literal' + v + ...] : concatenation with a [str] operand on the left. *)
Definition str_add (s : pystr) (v : Value) : result pystr :=
  match v with
  | VStr t => Ok (s ++ t)
  | _ => Raise TypeError
  end.

(** [k in c] for a [str] [k]: a key of a dict, an element of a list, a
    substring of a [str]; the other values are not containers. *)
Fixpoint substring (k s : pystr) : bool :=
  startswith k s || match s with [] => false | _ :: s' => substring k s' end.

Definition py_in (k : pystr) (c : Value) : result bool :=
  match c with
  | VDict items => Ok (match lookup k items with Some _ => true | None => false end)
  | VList l => Ok (existsb (fun v => eq_str v k) l)
  | VStr s => Ok (substring k s)
  | _ => Raise TypeError
  end.

(** The [str] items of an iterable, [TypeError] at an item that is no [str]. *)
Fixpoint str_items (l : list Value) : result (list pystr) :=
  match l with
  | [] => Ok []
  | VStr s :: rest => ss <- str_items rest ;; Ok (s :: ss)
  | _ :: _ => Raise TypeError
  end.

(** [sep.join(v)] : [v] is iterated (a list by its elements, a dict by its
    keys, a [str] by its characters) and must produce [str] items. *)
Definition py_join (sep : pystr) (v : Value) : result pystr :=
  match v with
  | VList l => ss <- str_items l ;; Ok (join sep ss)
  | VDict items => ss <- str_items (map fst items) ;; Ok (join sep ss)
  | VStr s => Ok (join sep (map (fun c => [c]) s))
  | _ => Raise TypeError
  end.

(** ** Generators

    A generator over a finite document yields finitely many items and then
    either returns or raises.  Its consumers pull the items one at a time, so
    an exception is only seen by a consumer that has not stopped earlier. *)

Record gen (A : Type) : Type := Gen { yielded : list A; finish : option PyErr }.

Definition gen_done {A} : gen A := Gen [] None.
Definition gen_raise {A} (e : PyErr) : gen A := Gen [] (Some e).
Definition gen_yield {A} (a : A) (rest : gen A) : gen A :=
  Gen (a :: yielded rest) (finish rest).

(** Run [g1] to its end, and [g2] after it when [g1] returned. *)
Definition gen_seq {A} (g1 g2 : gen A) : gen A :=
  match finish g1 with
  | Some e => g1
  | None => Gen (yielded g1 ++ yielded g2) (finish g2)
  end.

(** [for a in g: s = body(a, s)], the state threaded through the loop; the
    exception that ends the generator is raised when the loop reaches it. *)
Fixpoint for_items {A S} (body : A -> S -> result S) (l : list A) (s : S)
  : result S :=
  match l with
  | [] => Ok s
  | a :: rest => s' <- body a s ;; for_items body rest s'
  end.

Definition for_gen {A S} (body : A -> S -> result S) (g : gen A) (s : S)
  : result S :=
  s' <- for_items body (yielded g) s ;;
  match finish g with
  | None => Ok s'
  | Some e => Raise e
  end.

(** [for a in g: if test(a): return ...] : whether the loop left through its
    [return].  Items behind the first hit are never pulled. *)
Fixpoint any_items {A} (test : A -> result bool) (l : list A) : result bool :=
  match l with
  | [] => Ok false
  | a :: rest => b <- test a ;; if b then Ok true else any_items test rest
  end.

Definition any_gen {A} (test : A -> result bool) (g : gen A) : result bool :=
  b <- any_items test (yielded g) ;;
  if b then Ok true
  else match finish g with
       | None => Ok false
       | Some e => Raise e
       end.

(** ** The host language's identifier data

    [str.isidentifier] consults the Unicode database for the code points
    beyond ASCII (the derived properties XID_Start and XID_Continue).  The
    database is not part of the linter; it is a parameter of the model. *)

Class UnicodeData : Type := {
  xid_start : N -> bool;
  xid_continue : N -> bool
}.

Definition ascii_letter (c : N) : bool :=
  ((65 <=? c) && (c <=? 90) || (97 <=? c) && (c <=? 122))%N.

Definition ascii_digit (c : N) : bool := ((48 <=? c) && (c <=? 57))%N.

Definition underscore : N := 95.

Section Identifiers.
Context {ucd : UnicodeData}.

Definition is_xid_start (c : N) : bool :=
  if (c <? 128)%N then ascii_letter c else xid_start c.

Definition is_xid_continue (c : N) : bool :=
  if (c <? 128)%N
  then ascii_letter c || ascii_digit c || N.eqb c underscore
  else xid_continue c.

(** [s.isidentifier()] *)
Definition isidentifier (s : pystr) : bool :=
  match s with
  | [] => false
  | c :: rest =>
      (is_xid_start c || N.eqb c underscore) && forallb is_xid_continue rest
  end.
End Identifiers.

(** [keyword.kwlist] of Python 3 *)
Definition kwlist : list pystr :=
  map lit
    ["False"; "None"; "True"; "and"; "as"; "assert"; "async"; "await";
     "break"; "class"; "continue"; "def"; "del"; "elif"; "else"; "except";
     "finally"; "for"; "from"; "global"; "if"; "import"; "in"; "is";
     "lambda"; "nonlocal"; "not"; "or"; "pass"; "raise"; "return"; "try";
     "while"; "with"; "yield"]%string.

(** [keyword.iskeyword(s)] *)
Definition iskeyword (s : pystr) : bool := existsb (pystr_eqb s) kwlist.

(** [s.encode('ascii')] : the bytes of [s], or [UnicodeEncodeError] at a code
    point beyond the 7-bit range. *)
Definition encode_ascii (s : pystr) : result (list N) :=
  if forallb (fun c => c <? 128)%N s then Ok s else Raise UnicodeEncodeError.

(** ** The lint framework's records

    [Lintable] and [MatchError] belong to the framework; the rules read a
    file's [path] and [kind] and build a match from keyword arguments.
    [create_matcherror] records the arguments it is given; [linenumber] is
    [None] when the caller leaves it out. *)

Record Lintable : Type := { path : pystr; kind : pystr }.

Record MatchError : Type := {
  filename : Lintable;
  linenumber : option Value;
  message : pystr
}.

Definition create_matcherror (file : Lintable) (line : option Value)
  (msg : pystr) : MatchError :=
  {| filename := file; linenumber := line; message := msg |}.

(** ** src/ansiblelint/rules/VariableNamingRule.py *)

Module VariableNamingRule.
Section Rule.
Context {ucd : UnicodeData}.

(** [is_property(k)] : [k.startswith('__') and k.endswith('__')].  The
    methods exist on [str] only. *)
Definition is_property (k : Value) : result bool :=
  match k with
  | VStr s => Ok (startswith (lit "__") s && endswith (lit "__") s)
  | _ => Raise AttributeError
  end.

(** [is_invalid_variable_name(ident)] *)
Definition is_invalid_variable_name (ident : Value) : result bool :=
  match ident with
  | VStr s =>
      (* try: ident.encode('ascii')  except UnicodeEncodeError: return False *)
      match encode_ascii s with
      | Raise UnicodeEncodeError => Ok false
      | Raise e => Raise e
      | Ok _ =>
          if negb (isidentifier s) then Ok false
          else if iskeyword s then Ok false
          else Ok true
      end
  | _ => Ok false                        (* not isinstance(ident, str) *)
  end.

(** [recursive_items(dictionary)] : the generator of the (key, value) pairs.
    [dictionary.items()] exists on a dict only. *)
Fixpoint recursive_items (dictionary : Value) : gen (Value * Value) :=
  match dictionary with
  | VDict items =>
      (fix loop (l : list (Value * Value)) : gen (Value * Value) :=
         match l with
         | [] => gen_done
         | (key, value) :: rest =>
             match is_property key with
             | Raise e => gen_raise e
             | Ok true => loop rest
             | Ok false =>
                 match value with
                 | VDict _ =>
                     gen_yield (key, value)
                       (gen_seq (recursive_items value) (loop rest))
                 | _ => gen_yield (key, value) (loop rest)
                 end
             end
         end) items
  | _ => gen_raise AttributeError
  end.

Definition play_message (key : pystr) : pystr :=
  lit "Play defines variable '" ++ key
  ++ lit "' within 'vars' section that violates variable naming standards".

Definition file_message (key : pystr) : pystr :=
  lit "File defines variable '" ++ key
  ++ lit "' that violates variable naming standards".

(** [matchplay(file, data)] *)
Definition matchplay (file : Lintable) (data : Value)
  : result (list MatchError) :=
  our_vars <- py_get data (lit "vars") (VDict []) ;;
  for_gen
    (fun '(key, value) results =>
       b <- is_invalid_variable_name key ;;
       if b then
         line <- py_getitem our_vars (lit "__line__") ;;
         msg <- str_add (lit "Play defines variable '") key ;;
         Ok (results ++
             [create_matcherror file (Some line)
                (msg ++ lit "' within 'vars' section that violates variable naming standards")])
       else Ok results)
    (recursive_items our_vars) [].

Definition vars_message : pystr :=
  lit "Task defines variables within 'vars' section that violates variable naming standards".

Definition set_fact_message : pystr :=
  lit "Task uses 'set_fact' to define variables that violates variable naming standards".

Definition register_message : pystr :=
  lit "Task registers a variable that violates variable naming standards".

(** [matchtask(task, file)]; the result is the Python object returned,
    [False] or a message. *)
Definition matchtask (task : Value) : result Value :=
  our_vars <- py_get task (lit "vars") (VDict []) ;;
  hit <- any_gen (fun '(key, value) => is_invalid_variable_name key)
           (recursive_items our_vars) ;;
  if hit then Ok (VStr vars_message)
  else
    action <- py_getitem task (lit "action") ;;
    ansible_module <- py_getitem action (lit "__ansible_module__") ;;
    ansible_action <- py_getitem task (lit "action") ;;
    hit <- (if eq_str ansible_module (lit "set_fact")
            then any_gen (fun '(key, value) => is_invalid_variable_name key)
                   (recursive_items ansible_action)
            else Ok false) ;;
    if hit then Ok (VStr set_fact_message)
    else
      registered_var <- py_get task (lit "register") VNone ;;
      hit <- (if truthy registered_var
              then is_invalid_variable_name registered_var
              else Ok false) ;;
      if hit then Ok (VStr register_message)
      else Ok (VBool false).

(** [matchyaml(file)].  [parse_yaml_from_file] (ansiblelint.utils) and the
    base class's [matchyaml] are not part of this file: the function takes
    them as arguments. *)
Definition matchyaml
  (parse_yaml_from_file : pystr -> result Value)
  (super_matchyaml : Lintable -> result (list MatchError))
  (file : Lintable) : result (list MatchError) :=
  if pystr_eqb (kind file) (lit "vars") then
    meta_data <- parse_yaml_from_file (path file) ;;
    for_gen
      (fun '(key, value) results =>
         b <- is_invalid_variable_name key ;;
         if b then
           msg <- str_add (lit "File defines variable '") key ;;
           Ok (results ++
               [create_matcherror file None
                  (msg ++ lit "' that violates variable naming standards")])
         else Ok results)
      (recursive_items meta_data) []
  else
    found <- super_matchyaml file ;;
    Ok ([] ++ found).

End Rule.
End VariableNamingRule.

(** ** src/ansiblelint/rules/UseCommandInsteadOfShellRule.py *)

Module UseCommandInsteadOfShellRule.
Section Rule.

(** [self.unjinja], the template normalizer of the base class
    [AnsibleLintRule]: not part of this file, a parameter of the rule. *)
Variable unjinja : Value -> result pystr.

(** The characters of ['&|<>;$\n*[]{}?`']. *)
Definition metacharacters : pystr :=
  lit "&|<>;$" ++ [10%N] ++ lit "*[]{}?`".

(** [ch in text] for a one-character [ch]. *)
Definition char_in (ch : N) (text : pystr) : bool := existsb (N.eqb ch) text.

(** [matchtask(task, file)] *)
Definition matchtask (task : Value) : result Value :=
  action <- py_getitem task (lit "action") ;;
  ansible_module <- py_getitem action (lit "__ansible_module__") ;;
  if eq_str ansible_module (lit "shell") then
    has_cmd <- py_in (lit "cmd") action ;;
    unjinjad_cmd <-
      (if has_cmd then
         cmd <- py_get action (lit "cmd") (VList []) ;;
         unjinja cmd
       else
         args <- py_get action (lit "__ansible_arguments__") (VList []) ;;
         joined <- py_join (lit " ") args ;;
         unjinja (VStr joined)) ;;
    Ok (VBool (negb (existsb (fun ch => char_in ch unjinjad_cmd) metacharacters)))
  else Ok (VBool false).

End Rule.
End UseCommandInsteadOfShellRule.

(** ** Specification-side definitions *)

Import VariableNamingRule.

(** [k] is a [str] key. *)
Definition is_str (k : Value) : bool :=
  match k with VStr _ => true | _ => false end.

(** A mapping whose keys are strings, at every depth the walk can reach. *)
Fixpoint str_keyed (d : Value) : bool :=
  match d with
  | VDict items =>
      forallb (fun kv => is_str (fst kv) && str_keyed (snd kv)) items
  | _ => true
  end.

(** The internal properties: keys that start and end with the marker. *)
Definition internal (k : Value) : bool :=
  match k with
  | VStr s => startswith (lit "__") s && endswith (lit "__") s
  | _ => false
  end.

(** The walk as the specification words it: for each key and value of the
    mapping that is not internal, the pair, followed at once by the walk of
    the value when that is a mapping. *)
Fixpoint walk_spec (d : Value) : list (Value * Value) :=
  match d with
  | VDict items =>
      flat_map
        (fun kv => if internal (fst kv) then [] else kv :: walk_spec (snd kv))
        items
  | _ => []
  end.

(** [visible d p]: the pair [p] is an entry of [d] or of a mapping nested in
    [d], and every key on the way down to it, its own included, is not an
    internal property. *)
Inductive visible : Value -> Value * Value -> Prop :=
| visible_here items k v :
    In (k, v) items -> internal k = false -> visible (VDict items) (k, v)
| visible_below items k sub p :
    In (k, VDict sub) items -> internal k = false ->
    visible (VDict sub) p -> visible (VDict items) p.

(** The identifier syntax as the specification words it: letters, digits
    and underscore, not starting with a digit, non-empty. *)
Definition letter (c : N) : Prop :=
  (65 <= c <= 90)%N \/ (97 <= c <= 122)%N.

Definition digit (c : N) : Prop := (48 <= c <= 57)%N.

Definition identifier_syntax (s : pystr) : Prop :=
  s <> [] /\
  Forall (fun c => letter c \/ digit c \/ c = underscore) s /\
  (forall c rest, s = c :: rest -> ~ digit c).

Section Specification.
Context {ucd : UnicodeData}.

(** The test the three matchers apply to a name before they report it. *)
Definition reported (k : Value) : bool :=
  match is_invalid_variable_name k with
  | Ok b => b
  | Raise _ => false
  end.

(** The text of a [str] key. *)
Definition key_text (k : Value) : pystr :=
  match k with VStr s => s | _ => [] end.

End Specification.

(** The tokens of a list written one after the other with exactly one
    space (code point 32) between two neighbours, as the specification
    words the joining of the arguments. *)
Definition space_separated (tokens : list pystr) : pystr :=
  match tokens with
  | [] => []
  | first :: others => first ++ flat_map (fun token => 32%N :: token) others
  end.

(** The command text of a shell task: the [cmd] field when the action has
    one, otherwise the arguments list joined with single spaces. *)
Inductive command_text (action : list (Value * Value)) : Value -> Prop :=
| command_cmd c :
    lookup (lit "cmd") action = Some c -> command_text action c
| command_arguments args :
    lookup (lit "cmd") action = None ->
    lookup (lit "__ansible_arguments__") action = Some (VList (map VStr args)) ->
    command_text action (VStr (space_separated args))
| command_no_arguments :
    lookup (lit "cmd") action = None ->
    lookup (lit "__ansible_arguments__") action = None ->
    command_text action (VStr []).

(** ** Induction over values *)

Section ValueInduction.
Variable P : Value -> Prop.
Hypothesis HNone : P VNone.
Hypothesis HBool : forall b, P (VBool b).
Hypothesis HInt : forall z, P (VInt z).
Hypothesis HStr : forall s, P (VStr s).
Hypothesis HList : forall l, Forall P l -> P (VList l).
Hypothesis HDict : forall items, Forall (fun kv => P (snd kv)) items -> P (VDict items).

Fixpoint Value_ind (v : Value) : P v :=
  match v with
  | VNone => HNone
  | VBool b => HBool b
  | VInt z => HInt z
  | VStr s => HStr s
  | VList l =>
      HList ((fix all (l : list Value) : Forall P l :=
                match l with
                | [] => Forall_nil _
                | x :: r => Forall_cons x (Value_ind x) (all r)
                end) l)
  | VDict items =>
      HDict ((fix all (l : list (Value * Value))
                : Forall (fun kv => P (snd kv)) l :=
                match l with
                | [] => Forall_nil _
                | kv :: r => Forall_cons kv (Value_ind (snd kv)) (all r)
                end) items)
  end.
End ValueInduction.

(** ** Strings *)

Lemma pystr_eqb_eq (a b : pystr) : pystr_eqb a b = true <-> a = b.
Proof.
  unfold pystr_eqb. destruct (list_eq_dec N.eq_dec a b); split; congruence.
Qed.

Lemma pystr_eqb_refl (a : pystr) : pystr_eqb a a = true.
Proof. now apply pystr_eqb_eq. Qed.

Lemma startswith_spec (p s : pystr) :
  startswith p s = true <-> exists t, s = p ++ t.
Proof.
  revert s. induction p as [|a p IH]; intros s; simpl.
  - split; [intros _; now exists s | reflexivity].
  - destruct s as [|b s].
    + split; [discriminate | intros [t Ht]; discriminate].
    + rewrite andb_true_iff, N.eqb_eq, IH. split.
      * intros [-> [t ->]]. now exists t.
      * intros [t Ht]. injection Ht as -> ->. split; [reflexivity | now exists t].
Qed.

Lemma endswith_spec (p s : pystr) :
  endswith p s = true <-> exists t, s = t ++ p.
Proof.
  unfold endswith. rewrite startswith_spec. split.
  - intros [t Ht]. exists (rev t).
    rewrite <- (rev_involutive s), Ht, rev_app_distr, rev_involutive.
    reflexivity.
  - intros [t ->]. exists (rev t). now rewrite rev_app_distr.
Qed.

(** ** The key walker *)

Section Walker.

Lemma is_property_internal (k : Value) :
  is_property k = if is_str k then Ok (internal k) else Raise AttributeError.
Proof. now destruct k. Qed.

Lemma is_property_false (k : Value) :
  is_property k = Ok false <-> is_str k = true /\ internal k = false.
Proof.
  rewrite is_property_internal. destruct (is_str k); split.
  - intros H. injection H as ->. now split.
  - intros [_ ->]. reflexivity.
  - discriminate.
  - intros [H _]. discriminate.
Qed.

(** One turn of the loop of [recursive_items]. *)
Lemma recursive_items_cons (key value : Value) (rest : list (Value * Value)) :
  recursive_items (VDict ((key, value) :: rest)) =
  match is_property key with
  | Raise e => gen_raise e
  | Ok true => recursive_items (VDict rest)
  | Ok false =>
      match value with
      | VDict _ =>
          gen_yield (key, value)
            (gen_seq (recursive_items value) (recursive_items (VDict rest)))
      | _ => gen_yield (key, value) (recursive_items (VDict rest))
      end
  end.
Proof. reflexivity. Qed.

Lemma recursive_items_nil : recursive_items (VDict []) = gen_done.
Proof. reflexivity. Qed.

Lemma finish_gen_seq {A} (g1 g2 : gen A) :
  finish (gen_seq g1 g2) =
  match finish g1 with Some e => Some e | None => finish g2 end.
Proof. unfold gen_seq. now destruct (finish g1) eqn:H. Qed.

Lemma finish_gen_yield {A} (a : A) (g : gen A) :
  finish (gen_yield a g) = finish g.
Proof. reflexivity. Qed.

Lemma yielded_gen_seq {A} (g1 g2 : gen A) (a : A) :
  In a (yielded (gen_seq g1 g2)) -> In a (yielded g1) \/ In a (yielded g2).
Proof.
  unfold gen_seq. destruct (finish g1); simpl.
  - now left.
  - apply in_app_or.
Qed.

(** What a turn of the loop yields comes from the entry at hand, from the
    walk of its value, or from the turns behind it. *)
Lemma yielded_cons_inv key value rest (p : Value * Value) :
  In p (yielded (recursive_items (VDict ((key, value) :: rest)))) ->
  (is_property key = Ok false /\
   (p = (key, value) \/
    exists sub, value = VDict sub /\ In p (yielded (recursive_items value))))
  \/ In p (yielded (recursive_items (VDict rest))).
Proof.
  rewrite recursive_items_cons.
  destruct (is_property key) as [[|]|e]; simpl.
  - now right.
  - destruct value; simpl;
      try (intros [<-|H]; [left; split; [reflexivity | now left] | now right]).
    intros [<-|H]; [left; split; [reflexivity | now left] |].
    apply yielded_gen_seq in H as [H|H]; [|now right].
    left. split; [reflexivity|]. right. now exists items.
  - intros [].
Qed.

Lemma yielded_not_dict (d : Value) :
  (forall items, d <> VDict items) -> yielded (recursive_items d) = [].
Proof. destruct d; intros H; try reflexivity. now destruct (H items). Qed.

Lemma yielded_is_property_false (d : Value) :
  forall p, In p (yielded (recursive_items d)) -> is_property (fst p) = Ok false.
Proof.
  induction d as [| | | | |items IH] using Value_ind; try (intros p []).
  induction items as [|[key value] rest IHrest]; intros p H; [destruct H|].
  apply Forall_cons_iff in IH as [IHv IHr].
  apply yielded_cons_inv in H as [[Hk [->|[sub [-> H]]]]|H].
  - exact Hk.
  - now apply IHv.
  - now apply IHrest.
Qed.

Lemma yielded_visible (d : Value) :
  forall p, In p (yielded (recursive_items d)) -> visible d p.
Proof.
  induction d as [| | | | |items IH] using Value_ind; try (intros p []).
  induction items as [|[key value] rest IHrest]; intros p H; [destruct H|].
  apply Forall_cons_iff in IH as [IHv IHr].
  apply yielded_cons_inv in H as [[Hk [->|[sub [-> H]]]]|H].
  - apply visible_here; [now left | now apply is_property_false in Hk].
  - apply visible_below with (k := key) (sub := sub);
      [now left | now apply is_property_false in Hk | now apply IHv].
  - specialize (IHrest IHr p H). inversion IHrest; subst.
    + apply visible_here; [now right | assumption].
    + apply visible_below with (k := k) (sub := sub); [now right | assumption..].
Qed.

Lemma walk_spec_cons (kv : Value * Value) (rest : list (Value * Value)) :
  walk_spec (VDict (kv :: rest)) =
  (if internal (fst kv) then [] else kv :: walk_spec (snd kv))
  ++ walk_spec (VDict rest).
Proof. reflexivity. Qed.


Lemma walk_spec_not_dict (v : Value) :
  (forall items, v <> VDict items) -> walk_spec v = [].
Proof. destruct v; intros H; try reflexivity. now destruct (H items). Qed.

(** On a mapping with [str] keys the generator returns, and yields the
    pairs of the specification's walk in its order. *)
Lemma recursive_items_str_keyed (items : list (Value * Value)) :
  str_keyed (VDict items) = true ->
  recursive_items (VDict items) = Gen (walk_spec (VDict items)) None.
Proof.
  enough (H : forall d, str_keyed d = true ->
                forall l, d = VDict l ->
                recursive_items d = Gen (walk_spec d) None)
    by (intros Hk; now apply (H (VDict items) Hk items)).
  clear items.
  induction d as [| | | | |items IH] using Value_ind; try discriminate.
  intros Hkeyed l _. clear l.
  induction items as [|[key value] rest IHrest]; [reflexivity|].
  apply Forall_cons_iff in IH as [IHv IHr].
  change (str_keyed (VDict ((key, value) :: rest)))
    with ((is_str key && str_keyed value) && str_keyed (VDict rest)) in Hkeyed.
  apply andb_true_iff in Hkeyed as [Hkv Hrest].
  apply andb_true_iff in Hkv as [Hkey Hvalue].
  specialize (IHrest IHr Hrest).
  rewrite recursive_items_cons, walk_spec_cons, is_property_internal, Hkey, IHrest.
  simpl fst; simpl snd.
  destruct (internal key); [reflexivity|].
  destruct value as [| | | | |sub]; try reflexivity.
  specialize (IHv Hvalue sub eq_refl). cbv beta iota.
  change (snd (key, VDict sub)) with (VDict sub) in IHv.
  rewrite IHv. reflexivity.
Qed.

(** An entry stored under an internal key is passed over, its value with
    it: the walk is the walk of the mapping without the entry. *)
Lemma recursive_items_skip pre key value post :
  is_property key = Ok true ->
  recursive_items (VDict (pre ++ (key, value) :: post)) =
  recursive_items (VDict (pre ++ post)).
Proof.
  intros Hkey. induction pre as [|[k v] pre IH]; simpl app.
  - now rewrite recursive_items_cons, Hkey.
  - now rewrite !recursive_items_cons, IH.
Qed.



End Walker.

(** ** The identifier validator *)

Lemma ascii_letter_spec (c : N) : ascii_letter c = true <-> letter c.
Proof.
  unfold ascii_letter, letter.
  rewrite orb_true_iff, !andb_true_iff, !N.leb_le. tauto.
Qed.

Lemma ascii_digit_spec (c : N) : ascii_digit c = true <-> digit c.
Proof. unfold ascii_digit, digit. now rewrite andb_true_iff, !N.leb_le. Qed.

Lemma iskeyword_spec (s : pystr) : iskeyword s = true <-> In s kwlist.
Proof.
  unfold iskeyword. rewrite existsb_exists. split.
  - intros [k [Hin Heq]]. apply pystr_eqb_eq in Heq. now subst.
  - intros Hin. exists s. split; [assumption | apply pystr_eqb_refl].
Qed.

Lemma encode_ascii_ok (s : pystr) :
  encode_ascii s = Ok s <-> Forall (fun c => c < 128)%N s.
Proof.
  unfold encode_ascii. rewrite Forall_forall.
  destruct (forallb (fun c => (c <? 128)%N) s) eqn:H.
  - rewrite forallb_forall in H. split; [|reflexivity].
    intros _ c Hc. now apply N.ltb_lt, H.
  - split; [discriminate|]. intros Hall.
    assert (forallb (fun c => (c <? 128)%N) s = true) as Habs
      by (apply forallb_forall; intros c Hc; now apply N.ltb_lt, Hall).
    congruence.
Qed.

Lemma encode_ascii_cases (s : pystr) :
  encode_ascii s = Ok s \/ encode_ascii s = Raise UnicodeEncodeError.
Proof. unfold encode_ascii. destruct (forallb _ s); [now left | now right]. Qed.

Section Validator.
Context {ucd : UnicodeData}.

Lemma is_xid_continue_ascii (c : N) :
  (c < 128)%N ->
  is_xid_continue c = true <-> letter c \/ digit c \/ c = underscore.
Proof.
  intros Hc. unfold is_xid_continue.
  apply N.ltb_lt in Hc. rewrite Hc.
  rewrite !orb_true_iff, ascii_letter_spec, ascii_digit_spec, N.eqb_eq. tauto.
Qed.

Lemma is_xid_start_ascii (c : N) :
  (c < 128)%N ->
  is_xid_start c || N.eqb c underscore = true <->
  (letter c \/ digit c \/ c = underscore) /\ ~ digit c.
Proof.
  intros Hc. unfold is_xid_start.
  apply N.ltb_lt in Hc. rewrite Hc.
  rewrite orb_true_iff, ascii_letter_spec, N.eqb_eq.
  unfold letter, digit, underscore. lia.
Qed.

Lemma forallb_is_xid_continue_ascii (s : pystr) :
  Forall (fun c => c < 128)%N s ->
  forallb is_xid_continue s = true <->
  Forall (fun c => letter c \/ digit c \/ c = underscore) s.
Proof.
  induction 1 as [|c rest Hc _ IH]; simpl.
  - split; [constructor | reflexivity].
  - rewrite andb_true_iff, Forall_cons_iff, IH, (is_xid_continue_ascii Hc).
    reflexivity.
Qed.

(** On ASCII text [str.isidentifier] is the syntax of the specification;
    the Unicode tables play no part. *)
Lemma isidentifier_ascii (s : pystr) :
  Forall (fun c => c < 128)%N s ->
  isidentifier s = true <-> identifier_syntax s.
Proof.
  intros Hascii. unfold identifier_syntax.
  destruct s as [|c rest]; simpl.
  - split; [discriminate | intros [H _]; now destruct H].
  - apply Forall_cons_iff in Hascii as [Hc Hrest].
    rewrite andb_true_iff, (is_xid_start_ascii Hc),
      (forallb_is_xid_continue_ascii Hrest), Forall_cons_iff.
    split.
    + intros [[Hfirst Hnodigit] Hall].
      split; [discriminate|]. split; [now split|].
      intros c' rest' Heq. now injection Heq as <- <-.
    + intros [_ [[Hfirst Hall] Hnodigit]].
      split; [|assumption]. split; [assumption|]. now apply (Hnodigit c rest).
Qed.

Lemma is_invalid_variable_name_total (ident : Value) :
  exists b, is_invalid_variable_name ident = Ok b.
Proof.
  destruct ident; try (now exists false).
  unfold is_invalid_variable_name.
  destruct (encode_ascii_cases s) as [-> | ->]; [|now exists false].
  destruct (isidentifier s); [|now exists false].
  destruct (iskeyword s); [now exists false | now exists true].
Qed.

Lemma is_invalid_variable_name_true (ident : Value) :
  is_invalid_variable_name ident = Ok true <->
  exists s, ident = VStr s /\ Forall (fun c => c < 128)%N s /\
            identifier_syntax s /\ ~ In s kwlist.
Proof.
  split.
  - destruct ident; try discriminate.
    unfold is_invalid_variable_name.
    destruct (encode_ascii_cases s) as [Henc | Henc]; rewrite Henc;
      [|discriminate].
    apply encode_ascii_ok in Henc.
    destruct (isidentifier s) eqn:Hid; [|discriminate].
    destruct (iskeyword s) eqn:Hkw; [discriminate|].
    intros _. exists s. repeat split.
    + assumption.
    + now apply (isidentifier_ascii Henc).
    + now apply (isidentifier_ascii Henc).
    + now apply (isidentifier_ascii Henc).
    + rewrite <- iskeyword_spec. congruence.
  - intros [s [-> [Hascii [Hsyntax Hkw]]]].
    unfold is_invalid_variable_name.
    apply encode_ascii_ok in Hascii as Henc. rewrite Henc.
    apply (isidentifier_ascii Hascii) in Hsyntax. rewrite Hsyntax.
    rewrite <- iskeyword_spec in Hkw.
    destruct (iskeyword s); [now destruct Hkw | reflexivity].
Qed.

Lemma reported_spec (k : Value) :
  is_invalid_variable_name k = Ok (reported k).
Proof.
  unfold reported. destruct (is_invalid_variable_name_total k) as [b ->].
  reflexivity.
Qed.

Lemma reported_is_str (k : Value) : reported k = true -> k = VStr (key_text k).
Proof.
  intros H. pose proof (reported_spec k) as Hs. rewrite H in Hs.
  apply is_invalid_variable_name_true in Hs as [s [-> _]]. reflexivity.
Qed.

End Validator.

(** ** Loops over the walk *)

Section Loops.
Context {ucd : UnicodeData}.

(** The names of a walk on which the matchers' test succeeds. *)
Definition reported_pairs (l : list (Value * Value)) : list (Value * Value) :=
  filter (fun p => reported (fst p)) l.

(** Some name of the mapping's walk passes the matchers' test. *)
Definition names_reported (d : Value) : bool :=
  existsb (fun p => reported (fst p)) (walk_spec d).

Lemma finish_recursive_items (d : Value) :
  finish (recursive_items d) = None \/
  finish (recursive_items d) = Some AttributeError.
Proof.
  induction d as [| | | | |items IH] using Value_ind; try (now right).
  induction items as [|[key value] rest IHrest]; [now left|].
  apply Forall_cons_iff in IH as [IHv IHr]. specialize (IHrest IHr).
  rewrite recursive_items_cons, is_property_internal.
  destruct (is_str key); [|now right].
  destruct (internal key); [assumption|].
  destruct value; try exact IHrest.
  change (snd (key, VDict items)) with (VDict items) in IHv.
  rewrite finish_gen_yield, finish_gen_seq.
  destruct IHv as [H | H]; rewrite H; [exact IHrest | now right].
Qed.

(** A loop that appends one match per reported name. *)
Lemma for_items_report (mk : pystr -> MatchError)
  (body : Value * Value -> list MatchError -> result (list MatchError))
  (l : list (Value * Value)) :
  (forall p results, In p l ->
     body p results =
     if reported (fst p) then Ok (results ++ [mk (key_text (fst p))])
     else Ok results) ->
  forall acc,
    for_items body l acc =
    Ok (acc ++ map (fun p => mk (key_text (fst p))) (reported_pairs l)).
Proof.
  induction l as [|p l IH]; intros Hbody acc; simpl.
  - now rewrite app_nil_r.
  - rewrite Hbody by now left.
    assert (forall q results, In q l ->
              body q results =
              if reported (fst q) then Ok (results ++ [mk (key_text (fst q))])
              else Ok results) as Hrest
      by (intros q results Hq; apply Hbody; now right).
    destruct (reported (fst p)); simpl; rewrite (IH Hrest).
    + now rewrite <- app_assoc.
    + reflexivity.
Qed.

Lemma any_items_reported (l : list (Value * Value)) :
  any_items (fun '(key, _) => is_invalid_variable_name key) l =
  Ok (existsb (fun p => reported (fst p)) l).
Proof.
  induction l as [|[k v] l IH]; [reflexivity|].
  simpl. rewrite reported_spec. simpl.
  destruct (reported k); [reflexivity | exact IH].
Qed.

Lemma any_gen_str_keyed (items : list (Value * Value)) :
  str_keyed (VDict items) = true ->
  any_gen (fun '(key, _) => is_invalid_variable_name key)
    (recursive_items (VDict items)) = Ok (names_reported (VDict items)).
Proof.
  intros H. rewrite (recursive_items_str_keyed _ H).
  unfold any_gen. simpl yielded. rewrite any_items_reported. simpl.
  unfold names_reported. now destruct (existsb _ _).
Qed.

(** [matchplay] when the [vars] block carries its line. *)
Lemma matchplay_with_line file items vars line :
  lookup (lit "vars") items = Some (VDict vars) ->
  lookup (lit "__line__") vars = Some line ->
  matchplay file (VDict items) =
  match finish (recursive_items (VDict vars)) with
  | None =>
      Ok (map (fun p => create_matcherror file (Some line)
                          (play_message (key_text (fst p))))
            (reported_pairs (yielded (recursive_items (VDict vars)))))
  | Some e => Raise e
  end.
Proof.
  intros Hvars Hline. unfold matchplay, py_get. rewrite Hvars.
  unfold bind at 1. unfold for_gen.
  rewrite for_items_report
    with (mk := fun key => create_matcherror file (Some line) (play_message key)).
  - reflexivity.
  - intros [k v] results _. simpl fst.
    rewrite reported_spec. unfold bind at 1.
    destruct (reported k) eqn:Hk; [|reflexivity].
    unfold py_getitem. rewrite Hline. unfold bind at 1.
    rewrite (reported_is_str _ Hk) at 1. cbv [str_add bind].
    unfold play_message. now rewrite <- app_assoc.
Qed.

Lemma matchplay_without_vars file items :
  lookup (lit "vars") items = None -> matchplay file (VDict items) = Ok [].
Proof. intros H. unfold matchplay, py_get. now rewrite H. Qed.

(** [matchyaml] on a file of kind "vars". *)
Lemma matchyaml_vars parse super_matchyaml file meta_data :
  kind file = lit "vars" ->
  parse (path file) = Ok meta_data ->
  matchyaml parse super_matchyaml file =
  match finish (recursive_items meta_data) with
  | None =>
      Ok (map (fun p => create_matcherror file None
                          (file_message (key_text (fst p))))
            (reported_pairs (yielded (recursive_items meta_data))))
  | Some e => Raise e
  end.
Proof.
  intros Hkind Hparse. unfold matchyaml.
  rewrite Hkind, pystr_eqb_refl, Hparse.
  unfold bind at 1. unfold for_gen.
  rewrite for_items_report
    with (mk := fun key => create_matcherror file None (file_message key)).
  - reflexivity.
  - intros [k v] results _. simpl fst.
    rewrite reported_spec. unfold bind at 1.
    destruct (reported k) eqn:Hk; [|reflexivity].
    rewrite (reported_is_str _ Hk) at 1. cbv [str_add bind].
    unfold file_message. now rewrite <- app_assoc.
Qed.

End Loops.

(** ** Worked documents *)

(** A [str] value written as a literal. *)
Definition str (s : string) : Value := VStr (lit s).

(** [{a: {__line__: 4, b: {c: 1}}}] *)
Definition nested_example : Value :=
  VDict [(str "a", VDict [(str "__line__", VInt 4);
                          (str "b", VDict [(str "c", VInt 1)])])].

(** The play of [FAIL_PLAY] as the YAML loader reads it: the key [true] is
    the boolean, not a string.  [vars_marks] and [play_marks] are the
    bookkeeping entries the loader adds to the two mappings. *)
Definition FAIL_PLAY_parsed (vars_marks play_marks : list (Value * Value))
  : Value :=
  VDict ([(str "hosts", str "localhost");
          (str "vars", VDict ((VBool true, VBool false) :: vars_marks))]
         ++ play_marks).

(** A variables file with one well-formed and one malformed name. *)
Definition vars_file : Lintable :=
  {| path := lit "vars/main.yml"; kind := lit "vars" |}.

Definition vars_file_content : Value :=
  VDict [(str "valid_name", VInt 1); (str "2bad", VInt 2)].

(** A Unicode database without identifier characters beyond ASCII.  The
    theorems hold for every database; the worked examples run with this
    one. *)
Definition ascii_identifiers : UnicodeData :=
  {| xid_start := fun _ => false; xid_continue := fun _ => false |}.

(** ** The properties of the naming rule *)

Section VariableNamingProperties.
Context {ucd : UnicodeData}.

(** C2. [is_invalid_variable_name] returns a boolean for every input and
    never raises; it returns true exactly when the input is a [str] of 7-bit
    ASCII characters that has the identifier syntax and is not a reserved
    keyword.  It is false for a non-string, for "2bad", "class" and "héllo",
    and true for "valid_name". *)
Theorem is_invalid_variable_name_valid_identifier :
  (forall ident : Value,
     exists b : bool,
       is_invalid_variable_name ident = Ok b /\
       (b = true <->
        exists s, ident = VStr s /\ Forall (fun c => c < 128)%N s /\
                  identifier_syntax s /\ ~ In s kwlist)) /\
  is_invalid_variable_name VNone = Ok false /\
  (forall b, is_invalid_variable_name (VBool b) = Ok false) /\
  (forall z, is_invalid_variable_name (VInt z) = Ok false) /\
  (forall l, is_invalid_variable_name (VList l) = Ok false) /\
  (forall d, is_invalid_variable_name (VDict d) = Ok false) /\
  is_invalid_variable_name (VInt 123) = Ok false /\
  is_invalid_variable_name (str "2bad") = Ok false /\
  is_invalid_variable_name (str "class") = Ok false /\
  is_invalid_variable_name (VStr [104; 233; 108; 108; 111]%N) = Ok false /\
  is_invalid_variable_name (str "valid_name") = Ok true.
Proof.
  split; [|repeat split].
  intros ident. destruct (is_invalid_variable_name_total ident) as [b Hb].
  exists b. split; [assumption|].
  rewrite <- is_invalid_variable_name_true, Hb.
  split; [now intros -> | now intros [= ->]].
Qed.

End VariableNamingProperties.

(** C6. At every depth, no pair the walk yields has a key that starts and
    ends with the double underscore: the keys yielded are strings on which
    [is_property] is false, so [__line__], [__ansible_module__] and
    [__ansible_arguments__] are never among them. *)
Theorem recursive_items_never_yields_property :
  forall (d key value : Value),
    In (key, value) (yielded (recursive_items d)) ->
    is_property key = Ok false /\
    exists s, key = VStr s /\
      ~ ((exists t, s = lit "__" ++ t) /\ (exists t, s = t ++ lit "__")) /\
      s <> lit "__line__" /\
      s <> lit "__ansible_module__" /\
      s <> lit "__ansible_arguments__".
Proof.
  intros d key value Hin.
  apply yielded_is_property_false in Hin.
  change (fst (key, value)) with key in Hin.
  split; [assumption|].
  destruct key as [| | |s| |]; try discriminate.
  exists s. unfold is_property in Hin.
  assert (startswith (lit "__") s && endswith (lit "__") s = false) as Hb
    by congruence.
  clear Hin.
  assert (~ ((exists t, s = lit "__" ++ t) /\ (exists t, s = t ++ lit "__")))
    as Hnot.
  { intros [Hpre Hsuf].
    apply startswith_spec in Hpre. apply endswith_spec in Hsuf.
    rewrite Hpre, Hsuf in Hb. discriminate. }
  split; [reflexivity|]. split; [assumption|].
  repeat split; intros ->; apply Hnot; split.
  - now exists (lit "line__").
  - now exists (lit "__line").
  - now exists (lit "ansible_module__").
  - now exists (lit "__ansible_module").
  - now exists (lit "ansible_arguments__").
  - now exists (lit "__ansible_arguments").
Qed.

Lemma recursive_items_never_yields_property_witness :
  In (str "b", VDict [(str "c", VInt 1)]) (yielded (recursive_items nested_example)) /\
  is_property (str "b") = Ok false.
Proof.
  assert (In (str "b", VDict [(str "c", VInt 1)])
            (yielded (recursive_items nested_example))) as Hin
    by (vm_compute; right; left; reflexivity).
  split; [exact Hin|].
  exact (proj1 (recursive_items_never_yields_property nested_example _ _ Hin)).
Defined.



(** C10. The walk never enters the value stored under an internal key: an
    entry whose key starts and ends with the double underscore contributes
    nothing, whatever lies beneath it, so the walk is the walk of the
    mapping without that entry; and every pair that is yielded is reached
    from the root through keys that are not internal. *)
Theorem recursive_items_prunes_property_subtree :
  forall (pre post : list (Value * Value)) (key value : Value),
    is_property key = Ok true ->
    recursive_items (VDict (pre ++ (key, value) :: post)) =
    recursive_items (VDict (pre ++ post)) /\
    (forall value',
       recursive_items (VDict (pre ++ (key, value) :: post)) =
       recursive_items (VDict (pre ++ (key, value') :: post))) /\
    (forall d p, In p (yielded (recursive_items d)) -> visible d p).
Proof.
  intros pre post key value Hkey. split; [|split].
  - now apply recursive_items_skip.
  - intros value'. now rewrite !recursive_items_skip.
  - intros d p. apply yielded_visible.
Qed.

Lemma recursive_items_prunes_property_subtree_witness :
  is_property (str "__meta__") = Ok true /\
  recursive_items
    (VDict [(str "x", VInt 1);
            (str "__meta__", VDict [(str "hidden", VDict [(str "deep", VInt 2)])]);
            (str "y", VInt 3)]) =
  recursive_items (VDict [(str "x", VInt 1); (str "y", VInt 3)]).
Proof.
  split; [reflexivity|].
  exact (proj1 (recursive_items_prunes_property_subtree
                  [(str "x", VInt 1)] [(str "y", VInt 3)]
                  (str "__meta__")
                  (VDict [(str "hidden", VDict [(str "deep", VInt 2)])])
                  eq_refl)).
Defined.

Section NonStringKeys.
Context {ucd : UnicodeData}.

(** C9. A mapping whose first key is not a string (the boolean [True],
    say) makes the walk raise at once: [is_property] calls string methods
    on the key.  The validator itself answers false on such a key, yet the
    matchers never get to ask it: they raise with the walk. *)
Theorem recursive_items_raises_on_non_string_key :
  forall (key value : Value) (rest : list (Value * Value)) (file : Lintable)
         (parse : pystr -> result Value)
         (super_matchyaml : Lintable -> result (list MatchError)),
    is_str key = false ->
    kind file = lit "vars" ->
    parse (path file) = Ok (VDict ((key, value) :: rest)) ->
    recursive_items (VDict ((key, value) :: rest)) = gen_raise AttributeError /\
    is_invalid_variable_name key = Ok false /\
    matchplay file (VDict [(str "vars", VDict ((key, value) :: rest))]) =
      Raise AttributeError /\
    matchtask (VDict [(str "vars", VDict ((key, value) :: rest))]) =
      Raise AttributeError /\
    matchyaml parse super_matchyaml file = Raise AttributeError.
Proof.
  intros key value rest file parse super_matchyaml Hkey Hkind Hparse.
  assert (recursive_items (VDict ((key, value) :: rest)) =
          gen_raise AttributeError) as Hwalk
    by (rewrite recursive_items_cons, is_property_internal, Hkey; reflexivity).
  split; [exact Hwalk|]. split; [now destruct key|]. split; [|split].
  - unfold matchplay. cbv [py_get str lookup eq_str]. rewrite pystr_eqb_refl.
    unfold bind at 1. now rewrite Hwalk.
  - unfold matchtask. cbv [py_get str lookup eq_str]. rewrite pystr_eqb_refl.
    unfold bind at 1. now rewrite Hwalk.
  - unfold matchyaml. rewrite Hkind, pystr_eqb_refl, Hparse.
    unfold bind at 1. now rewrite Hwalk.
Qed.

End NonStringKeys.

(** ** The matchers *)

(** [d.get(k, default)] on a dict, as a value. *)
Definition get_default (k : pystr) (default : Value)
  (items : list (Value * Value)) : Value :=
  match lookup k items with
  | Some v => v
  | None => default
  end.

Lemma py_get_dict k default items :
  py_get (VDict items) k default = Ok (get_default k default items).
Proof. unfold py_get, get_default. now destruct (lookup k items). Qed.

Lemma py_getitem_dict k items v :
  lookup k items = Some v -> py_getitem (VDict items) k = Ok v.
Proof. intros H. unfold py_getitem. now rewrite H. Qed.

Ltac run_matcher H :=
  repeat match type of H with
         | bind ?m _ = Ok _ =>
             let E := fresh "E" in
             destruct m eqn:E; cbn [bind] in H; [|discriminate H]
         | (if ?b then _ else _) = Ok _ =>
             let E := fresh "E" in destruct b eqn:E
         end.

Section MatcherProperties.
Context {ucd : UnicodeData}.

Lemma messages_distinct :
  vars_message <> set_fact_message /\
  vars_message <> register_message /\
  set_fact_message <> register_message.
Proof. repeat split; intros H; vm_compute in H; discriminate H. Qed.

(** C8. A play without a [vars] key gets the empty list.  When the [vars]
    mapping carries its [__line__] entry, the lookup of the line never
    fails: [matchplay] does not raise [KeyError], every match it returns has
    that entry as its line number, and on string keys it returns one match
    per reported name of the walk. *)
Theorem matchplay_line_number :
  forall (file : Lintable) (items : list (Value * Value)),
    (lookup (lit "vars") items = None ->
     matchplay file (VDict items) = Ok []) /\
    (forall vars line,
       lookup (lit "vars") items = Some (VDict vars) ->
       lookup (lit "__line__") vars = Some line ->
       matchplay file (VDict items) <> Raise KeyError /\
       (forall found,
          matchplay file (VDict items) = Ok found ->
          Forall (fun m => linenumber m = Some line) found) /\
       (str_keyed (VDict vars) = true ->
        matchplay file (VDict items) =
        Ok (map (fun p => create_matcherror file (Some line)
                            (play_message (key_text (fst p))))
              (reported_pairs (walk_spec (VDict vars)))))).
Proof.
  intros file items. split; [apply matchplay_without_vars|].
  intros vars line Hvars Hline.
  rewrite (matchplay_with_line file _ Hvars Hline).
  split; [|split].
  - destruct (finish_recursive_items (VDict vars)) as [-> | ->]; discriminate.
  - intros found.
    destruct (finish (recursive_items (VDict vars))); [discriminate|].
    intros [= <-]. apply Forall_forall. intros m Hm.
    apply in_map_iff in Hm as [p [<- _]]. reflexivity.
  - intros Hkeyed. now rewrite (recursive_items_str_keyed _ Hkeyed).
Qed.

(** The order of the checks of [matchtask].  It returns [False] or one of
    three message strings, never a list.  It tests the names of the task's [vars] block first, then, for
    the [set_fact] module only, the keys of the action, then the [register]
    target, and returns at the first test that succeeds: a hit in [vars]
    gives the vars message whatever the rest of the task holds.  The three
    messages are pairwise different. *)
Theorem matchtask_short_circuit_order :
  (forall task r,
     matchtask task = Ok r ->
     r = VBool false \/ r = VStr vars_message \/
     r = VStr set_fact_message \/ r = VStr register_message) /\
  (forall items vars,
     get_default (lit "vars") (VDict []) items = VDict vars ->
     str_keyed (VDict vars) = true ->
     names_reported (VDict vars) = true ->
     matchtask (VDict items) = Ok (VStr vars_message)) /\
  (forall items vars action ansible_module,
     get_default (lit "vars") (VDict []) items = VDict vars ->
     str_keyed (VDict vars) = true ->
     lookup (lit "action") items = Some (VDict action) ->
     str_keyed (VDict action) = true ->
     lookup (lit "__ansible_module__") action = Some ansible_module ->
     matchtask (VDict items) =
     Ok (if names_reported (VDict vars) then VStr vars_message
         else if eq_str ansible_module (lit "set_fact")
                 && names_reported (VDict action)
         then VStr set_fact_message
         else if truthy (get_default (lit "register") VNone items)
                 && reported (get_default (lit "register") VNone items)
         then VStr register_message
         else VBool false)) /\
  vars_message <> set_fact_message /\
  vars_message <> register_message /\
  set_fact_message <> register_message.
Proof.
  split; [|split; [|split; [|exact messages_distinct]]].
  - intros task r H. unfold matchtask in H.
    run_matcher H; injection H as <-; auto.
  - intros items vars Hvars Hkeyed Hhit.
    unfold matchtask. rewrite py_get_dict, Hvars. cbn [bind].
    rewrite (any_gen_str_keyed _ Hkeyed), Hhit. reflexivity.
  - intros items vars action ansible_module Hvars Hkeyed Haction Hakeyed Hmodule.
    unfold matchtask. rewrite py_get_dict, Hvars. cbn [bind].
    rewrite (any_gen_str_keyed _ Hkeyed). cbn [bind].
    destruct (names_reported (VDict vars)); [reflexivity|].
    rewrite (py_getitem_dict _ _ Haction). cbn [bind].
    rewrite (py_getitem_dict _ _ Hmodule). cbn [bind].
    rewrite (any_gen_str_keyed _ Hakeyed).
    destruct (eq_str ansible_module (lit "set_fact")); cbn [bind andb].
    + destruct (names_reported (VDict action)); [reflexivity|].
      rewrite py_get_dict. cbn [bind]. rewrite reported_spec.
      now destruct (truthy _), (reported _).
    + rewrite py_get_dict. cbn [bind]. rewrite reported_spec.
      now destruct (truthy _), (reported _).
Qed.

(** C1. On a variables file with the names [valid_name] and [2bad],
    [matchyaml] returns one match, for [valid_name]: the name on which
    [is_invalid_variable_name] is true.  The call site tests the validator
    without negating it. *)
Theorem matchyaml_reports_where_validator_true :
  forall super_matchyaml : Lintable -> result (list MatchError),
    matchyaml (fun _ => Ok vars_file_content) super_matchyaml vars_file =
    Ok [create_matcherror vars_file None
          (lit "File defines variable 'valid_name' that violates variable naming standards")] /\
    is_invalid_variable_name (str "valid_name") = Ok true /\
    is_invalid_variable_name (str "2bad") = Ok false.
Proof. intros super_matchyaml. repeat split. Qed.

(** C3. On the play of [FAIL_PLAY], whose [vars] mapping has the boolean
    [True] as its key, [matchplay] raises [AttributeError] and returns no
    match, whatever bookkeeping entries the loader added. *)
Theorem matchplay_FAIL_PLAY_raises :
  forall (file : Lintable) (vars_marks play_marks : list (Value * Value)),
    matchplay file (FAIL_PLAY_parsed vars_marks play_marks) =
    Raise AttributeError.
Proof. intros file vars_marks play_marks. reflexivity. Qed.

End MatcherProperties.

(** What the play of [FAIL_PLAY] would give had the loader kept its key as
    text: the keyword [True] is not reported, the plain name [true] is. *)
Remark matchplay_text_key_readings `{ucd : UnicodeData} (file : Lintable) :
  matchplay file
    (VDict [(str "vars", VDict [(str "True", VBool false);
                                (str "__line__", VInt 4)])]) = Ok [] /\
  matchplay file
    (VDict [(str "vars", VDict [(str "true", VBool false);
                                (str "__line__", VInt 4)])]) =
  Ok [create_matcherror file (Some (VInt 4)) (play_message (lit "true"))].
Proof. split; reflexivity. Qed.

(** ** The properties of the shell rule *)

Lemma eq_str_spec (v : Value) (s : pystr) : eq_str v s = true <-> v = VStr s.
Proof.
  destruct v; simpl; try (split; discriminate).
  rewrite pystr_eqb_eq. split; [now intros -> | now intros [= ->]].
Qed.

(** [' '.join] puts exactly one space between two neighbouring tokens. *)
Lemma join_space_separated (tokens : list pystr) :
  join (lit " ") tokens = space_separated tokens.
Proof.
  destruct tokens as [|first others]; [reflexivity|].
  revert first. induction others as [|second others IH]; intros first.
  - simpl. now rewrite app_nil_r.
  - change (join (lit " ") (first :: second :: others))
      with (first ++ lit " " ++ join (lit " ") (second :: others)).
    rewrite IH. reflexivity.
Qed.

Lemma str_items_map_VStr (ss : list pystr) : str_items (map VStr ss) = Ok ss.
Proof. induction ss as [|s ss IH]; simpl; [|rewrite IH]; reflexivity. Qed.

Lemma negb_existsb_true {A} (f : A -> bool) (l : list A) :
  negb (existsb f l) = true <-> forall x, In x l -> f x = false.
Proof.
  rewrite negb_true_iff. split.
  - intros H x Hx. destruct (f x) eqn:Hf; [|reflexivity].
    assert (existsb f l = true) by (apply existsb_exists; now exists x).
    congruence.
  - intros H. destruct (existsb f l) eqn:He; [|reflexivity].
    apply existsb_exists in He as [x [Hx Hf]]. rewrite (H x Hx) in Hf.
    discriminate.
Qed.

Section ShellRuleProperties.
Import UseCommandInsteadOfShellRule.
Variable unjinja : Value -> result pystr.

Lemma char_in_false (ch : N) (text : pystr) :
  char_in ch text = false <-> ~ In ch text.
Proof.
  unfold char_in. split.
  - intros H Hin.
    assert (existsb (N.eqb ch) text = true)
      by (apply existsb_exists; exists ch; split; [assumption | apply N.eqb_refl]).
    congruence.
  - intros H. destruct (existsb (N.eqb ch) text) eqn:He; [|reflexivity].
    apply existsb_exists in He as [x [Hx Heq]]. apply N.eqb_eq in Heq.
    subst. contradiction.
Qed.

(** The command text the rule scans is the one the specification names. *)
Lemma matchtask_shell items action c text :
  lookup (lit "action") items = Some (VDict action) ->
  lookup (lit "__ansible_module__") action = Some (VStr (lit "shell")) ->
  command_text action c ->
  unjinja c = Ok text ->
  matchtask unjinja (VDict items) =
  Ok (VBool (negb (existsb (fun ch => char_in ch text) metacharacters))).
Proof.
  intros Haction Hmodule Hcmd Hnorm. unfold matchtask.
  rewrite (py_getitem_dict _ _ Haction). cbn [bind].
  rewrite (py_getitem_dict _ _ Hmodule). cbn [bind].
  replace (eq_str (VStr (lit "shell")) (lit "shell")) with true
    by (symmetry; now apply eq_str_spec).
  unfold py_in.
  destruct Hcmd as [c Hc | args Hc Hargs | Hc Hargs]; rewrite Hc; cbn [bind].
  - rewrite py_get_dict. unfold get_default. rewrite Hc. cbn [bind].
    rewrite Hnorm. reflexivity.
  - rewrite py_get_dict. unfold get_default. rewrite Hargs. cbn [bind].
    unfold py_join. rewrite str_items_map_VStr. cbn [bind].
    rewrite join_space_separated, Hnorm. reflexivity.
  - rewrite py_get_dict. unfold get_default. rewrite Hargs. cbn [bind].
    unfold py_join. cbn [str_items bind join]. rewrite Hnorm. reflexivity.
Qed.

(** C4. [matchtask] returns [False] for a task whose module is not
    [shell].  For the [shell] module it returns [True] exactly when the
    normalized command text (the [cmd] field when there is one, otherwise
    the arguments joined with single spaces, as in "ls -l *.txt") has none
    of the characters & | < > ; $ newline * [ ] { } ? and backtick. *)
Theorem matchtask_shell_without_metacharacters :
  forall (items action : list (Value * Value)) (ansible_module : Value),
    lookup (lit "action") items = Some (VDict action) ->
    lookup (lit "__ansible_module__") action = Some ansible_module ->
    (ansible_module <> VStr (lit "shell") ->
     matchtask unjinja (VDict items) = Ok (VBool false)) /\
    (ansible_module = VStr (lit "shell") ->
     forall c text,
       command_text action c ->
       unjinja c = Ok text ->
       exists b : bool,
         matchtask unjinja (VDict items) = Ok (VBool b) /\
         (b = true <-> forall ch, In ch metacharacters -> ~ In ch text)) /\
    metacharacters =
      [38; 124; 60; 62; 59; 36; 10; 42; 91; 93; 123; 125; 63; 96]%N /\
    space_separated [lit "ls"; lit "-l"; lit "*.txt"] = lit "ls -l *.txt".
Proof.
  intros items action ansible_module Haction Hmodule.
  split; [|split; [|split; reflexivity]].
  - intros Hother. unfold matchtask.
    rewrite (py_getitem_dict _ _ Haction). cbn [bind].
    rewrite (py_getitem_dict _ _ Hmodule). cbn [bind].
    destruct (eq_str ansible_module (lit "shell")) eqn:E; [|reflexivity].
    apply eq_str_spec in E. contradiction.
  - intros -> c text Hcmd Hnorm.
    exists (negb (existsb (fun ch => char_in ch text) metacharacters)).
    split; [now apply matchtask_shell with (action := action) (c := c)|].
    rewrite negb_existsb_true. split.
    + intros H ch Hch. now apply char_in_false, H.
    + intros H ch Hch. now apply char_in_false, H.
Qed.

End ShellRuleProperties.

(** ** Worked examples *)

(** The normalizer on text that holds no template: the text itself. *)
Definition plain_text (v : Value) : result pystr :=
  match v with
  | VStr s => Ok s
  | _ => Raise TypeError
  end.

(** [shell: cmd: "echo hello"] *)
Definition echo_action : list (Value * Value) :=
  [(str "__ansible_module__", str "shell"); (str "cmd", str "echo hello")].

Definition echo_task : list (Value * Value) :=
  [(str "action", VDict echo_action); (str "__line__", VInt 3)].

(** A task with a reported name in [vars] and as [register] target. *)
Definition both_vars : list (Value * Value) :=
  [(str "BadName", VInt 1); (str "__line__", VInt 5)].

Definition both_action : list (Value * Value) :=
  [(str "__ansible_module__", str "debug")].

Definition both_task : list (Value * Value) :=
  [(str "vars", VDict both_vars);
   (str "register", str "BadName");
   (str "action", VDict both_action)].

(** A play with one reported name in [vars]. *)
Definition one_play : list (Value * Value) :=
  [(str "hosts", str "localhost");
   (str "vars", VDict [(str "BadName", VInt 1); (str "__line__", VInt 7)]);
   (str "__line__", VInt 2)].

Definition playbook_file : Lintable :=
  {| path := lit "playbook.yml"; kind := lit "playbook" |}.

(** [shell: ls *.txt], given as arguments, without [cmd]. *)
Definition glob_action : list (Value * Value) :=
  [(str "__ansible_module__", str "shell");
   (str "__ansible_arguments__", VList (map VStr [lit "ls"; lit "*.txt"]))].

Definition glob_task : list (Value * Value) :=
  [(str "action", VDict glob_action); (str "__line__", VInt 3)].

(** [shell: echo hello], given as arguments, without [cmd]. *)
Definition echo_arguments_action : list (Value * Value) :=
  [(str "__ansible_module__", str "shell");
   (str "__ansible_arguments__", VList (map VStr [lit "echo"; lit "hello"]))].

Definition echo_arguments_task : list (Value * Value) :=
  [(str "action", VDict echo_arguments_action)].

Ltac no_metacharacter :=
  let ch := fresh "ch" in
  let Hch := fresh "Hch" in
  let Hin := fresh "Hin" in
  intros ch Hch Hin; vm_compute in Hch; vm_compute in Hin;
  repeat (destruct Hch as [Hch | Hch];
          [subst ch;
           repeat (destruct Hin as [Hin | Hin]; [discriminate Hin|]);
           exact Hin|]);
  exact Hch.

Lemma matchtask_shell_without_metacharacters_witness :
  UseCommandInsteadOfShellRule.matchtask plain_text (VDict echo_task) =
    Ok (VBool true) /\
  UseCommandInsteadOfShellRule.matchtask plain_text (VDict echo_arguments_task) =
    Ok (VBool true) /\
  UseCommandInsteadOfShellRule.matchtask plain_text (VDict glob_task) =
    Ok (VBool false).
Proof.
  split; [|split].
  - destruct (proj1 (proj2 (matchtask_shell_without_metacharacters plain_text
                              echo_task (ansible_module := str "shell")
                              eq_refl eq_refl))
                eq_refl (str "echo hello") (lit "echo hello")
                (@command_cmd echo_action (str "echo hello") eq_refl) eq_refl)
      as [b [Hrun Hiff]].
    assert (b = true) as -> by (apply Hiff; no_metacharacter).
    exact Hrun.
  - destruct (proj1 (proj2 (matchtask_shell_without_metacharacters plain_text
                              echo_arguments_task (ansible_module := str "shell")
                              eq_refl eq_refl))
                eq_refl (str "echo hello") (lit "echo hello")
                (@command_arguments echo_arguments_action
                   [lit "echo"; lit "hello"] eq_refl eq_refl) eq_refl)
      as [b [Hrun Hiff]].
    assert (b = true) as -> by (apply Hiff; no_metacharacter).
    exact Hrun.
  - destruct (proj1 (proj2 (matchtask_shell_without_metacharacters plain_text
                              glob_task (ansible_module := str "shell")
                              eq_refl eq_refl))
                eq_refl (str "ls *.txt") (lit "ls *.txt")
                (@command_arguments glob_action
                   [lit "ls"; lit "*.txt"] eq_refl eq_refl) eq_refl)
      as [b [Hrun Hiff]].
    destruct b; [|exact Hrun].
    exfalso. apply (proj1 Hiff eq_refl 42%N); vm_compute; tauto.
Defined.

Lemma matchtask_short_circuit_order_witness :
  @matchtask ascii_identifiers (VDict both_task) = Ok (VStr vars_message).
Proof.
  exact (proj1 (proj2 (@matchtask_short_circuit_order ascii_identifiers))
           both_task both_vars eq_refl eq_refl eq_refl).
Defined.

Lemma matchplay_line_number_witness :
  @matchplay ascii_identifiers playbook_file (VDict one_play) =
  Ok [create_matcherror playbook_file (Some (VInt 7))
        (play_message (lit "BadName"))].
Proof.
  exact (proj2 (proj2 (proj2 (@matchplay_line_number ascii_identifiers
                                playbook_file one_play)
                         [(str "BadName", VInt 1); (str "__line__", VInt 7)]
                         (VInt 7) eq_refl eq_refl))
           eq_refl).
Defined.

Lemma recursive_items_raises_on_non_string_key_witness :
  recursive_items (VDict [(VBool true, VBool false)]) = gen_raise AttributeError /\
  @is_invalid_variable_name ascii_identifiers (VBool true) = Ok false /\
  @matchplay ascii_identifiers vars_file
    (VDict [(str "vars", VDict [(VBool true, VBool false)])]) =
    Raise AttributeError /\
  @matchtask ascii_identifiers
    (VDict [(str "vars", VDict [(VBool true, VBool false)])]) =
    Raise AttributeError /\
  @matchyaml ascii_identifiers
    (fun _ => Ok (VDict [(VBool true, VBool false)]))
    (fun _ => Ok []) vars_file = Raise AttributeError.
Proof.
  exact (@recursive_items_raises_on_non_string_key ascii_identifiers
           (VBool true) (VBool false) [] vars_file
           (fun _ => Ok (VDict [(VBool true, VBool false)]))
           (fun _ => Ok []) eq_refl eq_refl eq_refl).
Defined.

(** The two tasks of the specification's content-safety example. *)
Example shell_echo_hello_flagged :
  UseCommandInsteadOfShellRule.matchtask plain_text (VDict echo_task) =
  Ok (VBool true).
Proof. reflexivity. Qed.

Example shell_pipe_not_flagged :
  UseCommandInsteadOfShellRule.matchtask plain_text
    (VDict [(str "action",
             VDict [(str "__ansible_module__", str "shell");
                    (str "cmd", str "echo hello | wc -l")])]) =
  Ok (VBool false).
Proof. reflexivity. Qed.

Example shell_arguments_glob_not_flagged :
  UseCommandInsteadOfShellRule.matchtask plain_text (VDict glob_task) =
  Ok (VBool false).
Proof. reflexivity. Qed.

Example shell_arguments_echo_flagged :
  UseCommandInsteadOfShellRule.matchtask plain_text
    (VDict echo_arguments_task) = Ok (VBool true).
Proof. reflexivity. Qed.

Example shell_arguments_joined_with_one_space :
  py_join (lit " ") (VList [str "ls"; str "-l"; str "*.txt"]) =
  Ok (lit "ls -l *.txt").
Proof. reflexivity. Qed.

Example command_module_never_flagged :
  UseCommandInsteadOfShellRule.matchtask plain_text
    (VDict [(str "action",
             VDict [(str "__ansible_module__", str "command");
                    (str "cmd", str "echo hello")])]) =
  Ok (VBool false).
Proof. reflexivity. Qed.

(** ** Names the validator rejects *)

(** A task with the malformed name [2bad] in its [vars] block and as its
    [register] target. *)
Definition malformed_names_task : list (Value * Value) :=
  [(str "vars", VDict [(str "2bad", VInt 1); (str "__line__", VInt 5)]);
   (str "register", str "2bad");
   (str "action", VDict [(str "__ansible_module__", str "debug")])].

(** A task whose only name is its [register] target. *)
Definition register_only_task : list (Value * Value) :=
  [(str "register", str "BadName");
   (str "action", VDict [(str "__ansible_module__", str "debug")])].

(** A [set_fact] task defining [my_fact]. *)
Definition set_fact_task : list (Value * Value) :=
  [(str "action", VDict [(str "__ansible_module__", str "set_fact");
                         (str "my_fact", VInt 1)])].


(** C5. On a task that has the malformed name [2bad] both in its [vars]
    block and as its [register] target, [matchtask] returns [False]: none
    of its tests fires on a name for which [is_invalid_variable_name] is
    false.  On names for which it is true the checks answer in their order:
    the vars message before the register message, the set_fact message for
    a [set_fact] argument, the register message for a task with nothing
    else to report. *)
Theorem matchtask_malformed_names_pass `{ucd : UnicodeData} :
  is_invalid_variable_name (str "2bad") = Ok false /\
  matchtask (VDict malformed_names_task) = Ok (VBool false) /\
  is_invalid_variable_name (str "BadName") = Ok true /\
  matchtask (VDict both_task) = Ok (VStr vars_message) /\
  matchtask (VDict set_fact_task) = Ok (VStr set_fact_message) /\
  matchtask (VDict register_only_task) = Ok (VStr register_message).
Proof. repeat split. Qed.


(** * Further properties of the two rules *)

(** [isinstance(v, dict)] *)
Definition is_dict (v : Value) : bool :=
  match v with VDict _ => true | _ => false end.


(** ** Sequencing of generators *)

Lemma gen_seq_done_l {A} (g : gen A) : gen_seq gen_done g = g.
Proof. now destruct g. Qed.

Lemma gen_seq_raise_l {A} (e : PyErr) (g : gen A) :
  gen_seq (gen_raise e) g = gen_raise e.
Proof. reflexivity. Qed.

Lemma gen_seq_yield {A} (a : A) (g h : gen A) :
  gen_seq (gen_yield a g) h = gen_yield a (gen_seq g h).
Proof. destruct g as [y [e|]]; reflexivity. Qed.

Lemma gen_seq_assoc {A} (g1 g2 g3 : gen A) :
  gen_seq g1 (gen_seq g2 g3) = gen_seq (gen_seq g1 g2) g3.
Proof.
  destruct g1 as [y1 [e1|]], g2 as [y2 [e2|]]; unfold gen_seq; simpl;
    try reflexivity.
  now rewrite app_assoc.
Qed.

Lemma recursive_items_not_dict (d : Value) :
  is_dict d = false -> recursive_items d = gen_raise AttributeError.
Proof. now destruct d. Qed.

(** ** The walk, continued *)

Lemma recursive_items_append (a b : list (Value * Value)) :
  recursive_items (VDict (a ++ b)) =
  gen_seq (recursive_items (VDict a)) (recursive_items (VDict b)).
Proof.
  induction a as [|[key value] a IH]; simpl app.
  - now rewrite recursive_items_nil, gen_seq_done_l.
  - rewrite !recursive_items_cons, IH.
    destruct (is_property key) as [[|]|e];
      [reflexivity | | now rewrite gen_seq_raise_l].
    destruct value; rewrite gen_seq_yield; try reflexivity.
    now rewrite gen_seq_assoc.
Qed.

(** X3. The walk of a mapping is the walk of its first entries followed,
    when that returned, by the walk of the remaining ones: what the first
    entries yield comes first, and an exception raised among them ends the
    walk there. *)
Theorem recursive_items_app :
  forall a b : list (Value * Value),
    recursive_items (VDict (a ++ b)) =
    gen_seq (recursive_items (VDict a)) (recursive_items (VDict b)) /\
    (finish (recursive_items (VDict a)) = None ->
     yielded (recursive_items (VDict (a ++ b))) =
     yielded (recursive_items (VDict a)) ++ yielded (recursive_items (VDict b)) /\
     finish (recursive_items (VDict (a ++ b))) =
     finish (recursive_items (VDict b))) /\
    (forall e, finish (recursive_items (VDict a)) = Some e ->
               recursive_items (VDict (a ++ b)) = recursive_items (VDict a)).
Proof.
  intros a b. rewrite recursive_items_append. unfold gen_seq.
  split; [reflexivity|]. split.
  - intros ->. now split.
  - intros e ->. reflexivity.
Qed.




(** X4. A value that is not a mapping is yielded with its key and not
    looked into: replacing it by any other value that is not a mapping
    changes neither the keys the walk yields nor the way it ends.  Names
    defined in mappings inside a list are therefore never yielded. *)
Theorem recursive_items_opaque_values :
  forall (pre post : list (Value * Value)) (key value value' : Value),
    is_dict value = false ->
    is_dict value' = false ->
    finish (recursive_items (VDict (pre ++ (key, value) :: post))) =
    finish (recursive_items (VDict (pre ++ (key, value') :: post))) /\
    map fst (yielded (recursive_items (VDict (pre ++ (key, value) :: post)))) =
    map fst (yielded (recursive_items (VDict (pre ++ (key, value') :: post)))).
Proof.
  intros pre post key value value' Hv Hv'.
  rewrite !recursive_items_append, !(recursive_items_cons key).
  assert (forall v, is_dict v = false ->
            match v with
            | VDict _ =>
                gen_yield (key, v)
                  (gen_seq (recursive_items v) (recursive_items (VDict post)))
            | _ => gen_yield (key, v) (recursive_items (VDict post))
            end = gen_yield (key, v) (recursive_items (VDict post))) as Hflat
    by (intros v Hd; destruct v; try reflexivity; discriminate).
  rewrite (Hflat _ Hv), (Hflat _ Hv').
  destruct (is_property key) as [[|]|e]; try (now split).
  rewrite !finish_gen_seq, !finish_gen_yield. split; [reflexivity|].
  unfold gen_seq. destruct (finish (recursive_items (VDict pre)));
    [reflexivity|].
  cbn [yielded gen_yield]. now rewrite !map_app.
Qed.

Lemma recursive_items_opaque_values_witness :
  map fst (yielded (recursive_items
    (VDict [(str "users", VList [VDict [(str "2bad", VInt 1)]]);
            (str "port", VInt 80)]))) =
  map fst (yielded (recursive_items
    (VDict [(str "users", VNone); (str "port", VInt 80)]))).
Proof.
  exact (proj2 (recursive_items_opaque_values
                  [] [(str "port", VInt 80)] (str "users")
                  (VList [VDict [(str "2bad", VInt 1)]]) VNone
                  eq_refl eq_refl)).
Defined.


(** ** The naming matchers, continued *)

Lemma for_gen_raise {A S} (body : A -> S -> result S) (e : PyErr) (s : S) :
  for_gen body (gen_raise e) s = Raise e.
Proof. reflexivity. Qed.

Lemma any_gen_raise {A} (test : A -> result bool) (e : PyErr) :
  any_gen test (gen_raise e) = Raise e.
Proof. reflexivity. Qed.

Lemma py_getitem_missing k items :
  lookup k items = None -> py_getitem (VDict items) k = Raise KeyError.
Proof. intros H. unfold py_getitem. now rewrite H. Qed.


Section NamingMatchers.
Context {ucd : UnicodeData}.

(** A loop whose body fails with [e] at every reported name. *)
Lemma for_items_fail (e : PyErr)
  (body : Value * Value -> list MatchError -> result (list MatchError))
  (l : list (Value * Value)) :
  (forall p results,
     body p results = if reported (fst p) then Raise e else Ok results) ->
  forall acc,
    for_items body l acc =
    if existsb (fun p => reported (fst p)) l then Raise e else Ok acc.
Proof.
  intros Hbody. induction l as [|p l IH]; intros acc; [reflexivity|].
  simpl. rewrite Hbody.
  destruct (reported (fst p)); [reflexivity|]. simpl. apply IH.
Qed.

(** X5. On a file of kind "vars" whose content is a mapping with [str]
    keys, [matchyaml] returns one match for each name of the walk on which
    [is_invalid_variable_name] is true, in the order of the walk, each with
    the file message for that name and without a line number. *)
Theorem matchyaml_vars_file :
  forall (parse : pystr -> result Value)
         (super_matchyaml : Lintable -> result (list MatchError))
         (file : Lintable) (items : list (Value * Value)),
    kind file = lit "vars" ->
    parse (path file) = Ok (VDict items) ->
    str_keyed (VDict items) = true ->
    matchyaml parse super_matchyaml file =
    Ok (map (fun p => create_matcherror file None
                        (file_message (key_text (fst p))))
          (filter (fun p => reported (fst p)) (walk_spec (VDict items)))).
Proof.
  intros parse super_matchyaml file items Hkind Hparse Hkeyed.
  rewrite (matchyaml_vars parse super_matchyaml file Hkind Hparse).
  now rewrite (recursive_items_str_keyed _ Hkeyed).
Qed.

(** X6. For a file of any other kind [matchyaml] is the base class's
    [matchyaml]: same matches, same exception, and the file is not parsed. *)
Theorem matchyaml_other_kind :
  forall (parse : pystr -> result Value)
         (super_matchyaml : Lintable -> result (list MatchError))
         (file : Lintable),
    kind file <> lit "vars" ->
    matchyaml parse super_matchyaml file = super_matchyaml file.
Proof.
  intros parse super_matchyaml file Hkind. unfold matchyaml.
  destruct (pystr_eqb (kind file) (lit "vars")) eqn:E.
  - apply pystr_eqb_eq in E. contradiction.
  - now destruct (super_matchyaml file).
Qed.

(** X7. On a file of kind "vars", an exception of the parser leaves
    [matchyaml] as it is, and a content that is not a mapping (an empty
    file read as [None], a list, a scalar) makes it raise
    [AttributeError]. *)
Theorem matchyaml_vars_errors :
  forall (parse : pystr -> result Value)
         (super_matchyaml : Lintable -> result (list MatchError))
         (file : Lintable),
    kind file = lit "vars" ->
    (forall e, parse (path file) = Raise e ->
               matchyaml parse super_matchyaml file = Raise e) /\
    (forall content, parse (path file) = Ok content ->
                     is_dict content = false ->
                     matchyaml parse super_matchyaml file = Raise AttributeError).
Proof.
  intros parse super_matchyaml file Hkind. unfold matchyaml.
  rewrite Hkind, pystr_eqb_refl. split.
  - intros e ->. reflexivity.
  - intros content -> Hcontent. cbn [bind].
    now rewrite (recursive_items_not_dict _ Hcontent).
Qed.

(** X8. When the [vars] mapping of a play has [str] keys but no
    [__line__] entry, [matchplay] returns the empty list if no name is
    reported and raises [KeyError] as soon as one is. *)
Theorem matchplay_without_line :
  forall (file : Lintable) (items vars : list (Value * Value)),
    lookup (lit "vars") items = Some (VDict vars) ->
    lookup (lit "__line__") vars = None ->
    str_keyed (VDict vars) = true ->
    matchplay file (VDict items) =
    if names_reported (VDict vars) then Raise KeyError else Ok [].
Proof.
  intros file items vars Hvars Hline Hkeyed.
  unfold matchplay, py_get. rewrite Hvars. cbn [bind].
  rewrite (recursive_items_str_keyed _ Hkeyed). unfold for_gen.
  cbn [yielded finish].
  rewrite for_items_fail with (e := KeyError).
  - unfold names_reported. now destruct (existsb _ _).
  - intros [k v] results. cbn [fst]. rewrite reported_spec. cbn [bind].
    destruct (reported k); [|reflexivity].
    unfold py_getitem. now rewrite Hline.
Qed.

(** X9. A [vars] section that is not a mapping (a list of mappings, a
    [null]) makes both [matchplay] and [matchtask] raise
    [AttributeError]; so does a play or a task that is itself no mapping. *)
Theorem vars_not_a_mapping :
  forall (file : Lintable) (items : list (Value * Value)) (vars : Value),
    lookup (lit "vars") items = Some vars ->
    is_dict vars = false ->
    matchplay file (VDict items) = Raise AttributeError /\
    matchtask (VDict items) = Raise AttributeError /\
    (forall data, is_dict data = false ->
                  matchplay file data = Raise AttributeError /\
                  matchtask data = Raise AttributeError).
Proof.
  intros file items vars Hvars Hdict. split; [|split].
  - unfold matchplay, py_get. rewrite Hvars. cbn [bind].
    now rewrite (recursive_items_not_dict _ Hdict).
  - unfold matchtask, py_get. rewrite Hvars. cbn [bind].
    now rewrite (recursive_items_not_dict _ Hdict).
  - intros data Hdata. now destruct data.
Qed.




End NamingMatchers.

(** ** The shell rule, continued *)

Lemma str_items_non_str (l : list Value) :
  existsb (fun v => negb (is_str v)) l = true ->
  str_items l = Raise TypeError.
Proof.
  induction l as [|v l IH]; [discriminate|].
  simpl. destruct v; try reflexivity.
  simpl. intros H. now rewrite (IH H).
Qed.

Section ShellRuleFurther.
Import UseCommandInsteadOfShellRule.
Variable unjinja : Value -> result pystr.

(** X13. A [shell] task without [cmd] whose arguments are a list with a
    token that is no [str], or are no iterable at all ([None], a number, a
    boolean), raises [TypeError] in the join, before the normalizer is
    called. *)
Theorem matchtask_shell_bad_arguments :
  forall (items action : list (Value * Value)) (args : Value),
    lookup (lit "action") items = Some (VDict action) ->
    lookup (lit "__ansible_module__") action = Some (VStr (lit "shell")) ->
    lookup (lit "cmd") action = None ->
    lookup (lit "__ansible_arguments__") action = Some args ->
    match args with
    | VList l => existsb (fun v => negb (is_str v)) l = true
    | VNone | VBool _ | VInt _ => True
    | VStr _ | VDict _ => False
    end ->
    matchtask unjinja (VDict items) = Raise TypeError.
Proof.
  intros items action args Haction Hmodule Hcmd Hargs Hbad.
  unfold matchtask.
  rewrite (py_getitem_dict _ _ Haction). cbn [bind].
  rewrite (py_getitem_dict _ _ Hmodule). cbn [bind].
  replace (eq_str (VStr (lit "shell")) (lit "shell")) with true
    by (symmetry; now apply eq_str_spec).
  unfold py_in. rewrite Hcmd. cbn [bind].
  rewrite py_get_dict. unfold get_default. rewrite Hargs. cbn [bind].
  destruct args as [| | | |l|]; try reflexivity; try contradiction.
  unfold py_join. now rewrite (str_items_non_str _ Hbad).
Qed.

(** X14. Whatever the task and the normalizer, a value [matchtask]
    returns is a boolean, never a message. *)
Theorem matchtask_shell_returns_bool :
  forall (task r : Value),
    matchtask unjinja task = Ok r -> exists b : bool, r = VBool b.
Proof.
  intros task r H. unfold matchtask in H.
  run_matcher H; injection H as <-; eexists; reflexivity.
Qed.

(** X15. When the action of a [shell] task has a [cmd] field, that field
    alone decides: two such tasks with the same [cmd] get the same result,
    whatever their argument lists and other fields are. *)
Theorem matchtask_shell_cmd_decides :
  forall (items items' action action' : list (Value * Value)) (c : Value),
    lookup (lit "action") items = Some (VDict action) ->
    lookup (lit "__ansible_module__") action = Some (VStr (lit "shell")) ->
    lookup (lit "cmd") action = Some c ->
    lookup (lit "action") items' = Some (VDict action') ->
    lookup (lit "__ansible_module__") action' = Some (VStr (lit "shell")) ->
    lookup (lit "cmd") action' = Some c ->
    matchtask unjinja (VDict items) = matchtask unjinja (VDict items').
Proof.
  assert (forall its act c,
            lookup (lit "action") its = Some (VDict act) ->
            lookup (lit "__ansible_module__") act = Some (VStr (lit "shell")) ->
            lookup (lit "cmd") act = Some c ->
            matchtask unjinja (VDict its) =
            (text <- unjinja c ;;
             Ok (VBool (negb (existsb (fun ch => char_in ch text)
                                metacharacters))))) as Hcmd.
  { intros its act c Haction Hmodule Hc. unfold matchtask.
    rewrite (py_getitem_dict _ _ Haction). cbn [bind].
    rewrite (py_getitem_dict _ _ Hmodule). cbn [bind].
    replace (eq_str (VStr (lit "shell")) (lit "shell")) with true
      by (symmetry; now apply eq_str_spec).
    unfold py_in. rewrite Hc. cbn [bind].
    rewrite py_get_dict. unfold get_default. rewrite Hc. cbn [bind].
    reflexivity. }
  intros items items' action action' c Ha Hm Hc Ha' Hm' Hc'.
  now rewrite (Hcmd _ _ _ Ha Hm Hc), (Hcmd _ _ _ Ha' Hm' Hc').
Qed.

(** X16. A task without [action], or whose action has no
    [__ansible_module__], makes [matchtask] raise [KeyError]; an [action]
    that is no mapping makes it raise [TypeError].  The normalizer is not
    called. *)
Theorem matchtask_shell_missing_action :
  forall items : list (Value * Value),
    (lookup (lit "action") items = None ->
     matchtask unjinja (VDict items) = Raise KeyError) /\
    (forall action,
       lookup (lit "action") items = Some (VDict action) ->
       lookup (lit "__ansible_module__") action = None ->
       matchtask unjinja (VDict items) = Raise KeyError) /\
    (forall action,
       lookup (lit "action") items = Some action ->
       is_dict action = false ->
       matchtask unjinja (VDict items) = Raise TypeError).
Proof.
  intros items. unfold matchtask. split; [|split].
  - intros Haction. now rewrite (py_getitem_missing _ _ Haction).
  - intros action Haction Hmodule.
    rewrite (py_getitem_dict _ _ Haction). cbn [bind].
    now rewrite (py_getitem_missing _ _ Hmodule).
  - intros action Haction Hdict.
    rewrite (py_getitem_dict _ _ Haction). cbn [bind].
    now destruct action.
Qed.

End ShellRuleFurther.

(** ** Worked examples, continued *)





(** A [shell] task with a number among its arguments. *)
Definition numeric_argument_action : list (Value * Value) :=
  [(str "__ansible_module__", str "shell");
   (str "__ansible_arguments__", VList [str "sleep"; VInt 5])].

Definition numeric_argument_task : list (Value * Value) :=
  [(str "action", VDict numeric_argument_action)].

(** The same [cmd] with and without an argument list. *)
Definition echo_action_with_arguments : list (Value * Value) :=
  [(str "__ansible_module__", str "shell");
   (str "__ansible_arguments__", VList [str "a|b"]);
   (str "cmd", str "echo hello")].

Lemma recursive_items_app_witness :
  yielded (recursive_items
             (VDict ([(str "a", VInt 1)] ++ [(str "b", VInt 2)]))) =
  yielded (recursive_items (VDict [(str "a", VInt 1)]))
  ++ yielded (recursive_items (VDict [(str "b", VInt 2)])).
Proof.
  exact (proj1 (proj1 (proj2 (recursive_items_app
                                [(str "a", VInt 1)] [(str "b", VInt 2)]))
                  eq_refl)).
Defined.

Lemma matchyaml_vars_file_witness :
  @matchyaml ascii_identifiers (fun _ => Ok vars_file_content)
    (fun _ => Ok []) vars_file =
  Ok [create_matcherror vars_file None (file_message (lit "valid_name"))].
Proof.
  exact (@matchyaml_vars_file ascii_identifiers
           (fun _ => Ok vars_file_content) (fun _ => Ok []) vars_file
           [(str "valid_name", VInt 1); (str "2bad", VInt 2)]
           eq_refl eq_refl eq_refl).
Defined.

Lemma playbook_kind_not_vars : kind playbook_file <> lit "vars".
Proof. intros H. vm_compute in H. discriminate H. Defined.

Lemma matchyaml_other_kind_witness :
  @matchyaml ascii_identifiers (fun _ => Raise YAMLError)
    (fun _ => Ok []) playbook_file = Ok [].
Proof.
  exact (@matchyaml_other_kind ascii_identifiers (fun _ => Raise YAMLError)
           (fun _ => Ok []) playbook_file playbook_kind_not_vars).
Defined.

Lemma matchyaml_vars_errors_witness :
  @matchyaml ascii_identifiers (fun _ => Ok VNone) (fun _ => Ok []) vars_file =
  Raise AttributeError.
Proof.
  exact (proj2 (@matchyaml_vars_errors ascii_identifiers (fun _ => Ok VNone)
                  (fun _ => Ok []) vars_file eq_refl)
           VNone eq_refl eq_refl).
Defined.

Lemma matchplay_without_line_witness :
  @matchplay ascii_identifiers playbook_file
    (VDict [(str "vars", VDict [(str "BadName", VInt 1)])]) = Raise KeyError.
Proof.
  exact (@matchplay_without_line ascii_identifiers playbook_file
           [(str "vars", VDict [(str "BadName", VInt 1)])]
           [(str "BadName", VInt 1)] eq_refl eq_refl eq_refl).
Defined.

Lemma vars_not_a_mapping_witness :
  @matchplay ascii_identifiers playbook_file
    (VDict [(str "vars", VList [VDict [(str "BadName", VInt 1)]])]) =
  Raise AttributeError.
Proof.
  exact (proj1 (@vars_not_a_mapping ascii_identifiers playbook_file
                  [(str "vars", VList [VDict [(str "BadName", VInt 1)]])]
                  (VList [VDict [(str "BadName", VInt 1)]])
                  eq_refl eq_refl)).
Defined.





Lemma matchtask_shell_bad_arguments_witness :
  UseCommandInsteadOfShellRule.matchtask plain_text
    (VDict numeric_argument_task) = Raise TypeError.
Proof.
  exact (matchtask_shell_bad_arguments plain_text
           numeric_argument_task (action := numeric_argument_action)
           (args := VList [str "sleep"; VInt 5])
           eq_refl eq_refl eq_refl eq_refl eq_refl).
Defined.

Lemma matchtask_shell_returns_bool_witness :
  exists b : bool, VBool true = VBool b.
Proof.
  exact (matchtask_shell_returns_bool plain_text (VDict echo_task) eq_refl).
Defined.

Lemma matchtask_shell_cmd_decides_witness :
  UseCommandInsteadOfShellRule.matchtask plain_text (VDict echo_task) =
  UseCommandInsteadOfShellRule.matchtask plain_text
    (VDict [(str "action", VDict echo_action_with_arguments)]).
Proof.
  exact (matchtask_shell_cmd_decides plain_text
           echo_task (action := echo_action)
           [(str "action", VDict echo_action_with_arguments)]
           (action' := echo_action_with_arguments) (c := str "echo hello")
           eq_refl eq_refl eq_refl eq_refl eq_refl eq_refl).
Defined.

Lemma matchtask_shell_missing_action_witness :
  UseCommandInsteadOfShellRule.matchtask plain_text
    (VDict [(str "name", str "no action")]) = Raise KeyError.
Proof.
  exact (proj1 (matchtask_shell_missing_action plain_text
                  [(str "name", str "no action")])
           eq_refl).
Defined.
